(** * run_app.py: the launcher of the ComfyUI launcher backend

    The launcher is one Python module.  After binding [sys] and [Path]
    from the standard library (lines 5 and 6, taken as given here), it
    runs four statements:

      project_root = Path(__file__).parent
      sys.path.insert(0, str(project_root))
      from backend.main import main
      if __name__ == "__main__":
          main()

    It is embedded here as a program of a small state-and-exception monad
    over the interpreter state it touches ([sys.path] and the working
    directory), with a log of the effects it performs.  What the launcher
    calls is embedded next to it: [pathlib]'s POSIX path parsing,
    [list.insert], and the path based import of a module that is not
    loaded yet (regular packages, module files and namespace
    directories). *)

From Stdlib Require Import String Ascii List ZArith Lia Bool.
Import ListNotations.
Open Scope string_scope.

(** ** Python strings: [str.split("/")], ["/".join], [str.startswith("/")] *)
Module PyStr.

Definition is_sep (c : ascii) : bool := Ascii.eqb c "/".

(** [s.split("/")]: the fields between separators, empty fields kept. *)
Fixpoint split (s : string) : list string :=
  match s with
  | EmptyString => [EmptyString]
  | String c s' =>
      if is_sep c then EmptyString :: split s'
      else match split s' with
           | [] => [String c EmptyString]
           | field :: fields => String c field :: fields
           end
  end.

(** ["/".join(fields)] *)
Definition join (fields : list string) : string := String.concat "/" fields.

(** [s.startswith("/")], which is [posixpath.isabs s]. *)
Definition isabs (s : string) : bool :=
  match s with
  | String c _ => is_sep c
  | EmptyString => false
  end.

(** No separator occurs in [s]. *)
Fixpoint sep_free (s : string) : bool :=
  match s with
  | EmptyString => true
  | String c s' => negb (is_sep c) && sep_free s'
  end.

End PyStr.

(** ** [pathlib.PurePosixPath] *)
Module PurePath.

(** A parsed path: the root (empty, ["/"] or ["//"]) and the names
    after it.  POSIX paths have no drive. *)
Record t := mk { root : string; tail : list string }.

(** [posixpath.splitroot]: one leading slash or three and more make the
    root ["/"], exactly two make the root ["//"]. *)
Definition splitroot (p : string) : string * string :=
  match p with
  | String c1 rest1 =>
      if PyStr.is_sep c1 then
        match rest1 with
        | String c2 rest2 =>
            if PyStr.is_sep c2 then
              match rest2 with
              | String c3 _ =>
                  if PyStr.is_sep c3 then ("/", rest1) else ("//", rest2)
              | EmptyString => ("//", rest2)
              end
            else ("/", rest1)
        | EmptyString => ("/", rest1)
        end
      else (EmptyString, p)
  | EmptyString => (EmptyString, p)
  end.

(** A field of the split that the parser keeps: not empty, not ["."]. *)
Definition kept (x : string) : bool :=
  negb (String.eqb x EmptyString) && negb (String.eqb x ".").

(** [Path(s)]: split the root off, split the rest at the separators and
    drop the empty and the ["."] fields.  [".."] is kept as it is. *)
Definition parse (s : string) : t :=
  let '(r, rel) := splitroot s in
  mk r (filter kept (PyStr.split rel)).

(** [str(p)]: root and joined names, ["."] for the empty path. *)
Definition to_str (p : t) : string :=
  match root p, tail p with
  | EmptyString, [] => "."
  | r, names => r ++ PyStr.join names
  end.

(** [p.parent]: the path without its last name; a path with no name is
    its own parent. *)
Definition parent (p : t) : t :=
  match tail p with
  | [] => p
  | _ :: _ => mk (root p) (removelast (tail p))
  end.

(** [p.is_absolute()] *)
Definition is_absolute (p : t) : bool := negb (String.eqb (root p) EmptyString).

(** What the parser produces: one of the three roots, and names that are
    not empty, not ["."] and hold no separator. *)
Record wf (p : t) : Prop := {
  wf_root : root p = EmptyString \/ root p = "/" \/ root p = "//";
  wf_kept : Forall (fun x => kept x = true) (tail p);
  wf_names : Forall (fun x => PyStr.sep_free x = true) (tail p)
}.

End PurePath.

(** ** [list.insert] *)

(** [l.insert(i, x)]: a negative index counts from the end, and an index
    out of range is clamped to the nearest end; the call never raises. *)
Definition list_insert {A : Type} (i : Z) (x : A) (l : list A) : list A :=
  let n := Z.of_nat (length l) in
  let i1 := if (i <? 0)%Z then (i + n)%Z else i in
  let i2 := if (i1 <? 0)%Z then 0%Z else i1 in
  let i3 := if (i2 >? n)%Z then n else i2 in
  (firstn (Z.to_nat i3) l ++ x :: skipn (Z.to_nat i3) l)%list.

(** ** Exceptions and values *)

Inductive exn : Type :=
| ModuleNotFoundError (name : string)
| ImportError (name from_module : string)
| AttributeError (message : string)
| TypeError (message : string)
| NameError (name : string)
| OtherException (class message : string).

(** The exception classes the launcher's failures are told apart by.
    [ModuleNotFoundError] is a subclass of [ImportError]. *)
Definition is_import_error (e : exn) : bool :=
  match e with
  | ModuleNotFoundError _ | ImportError _ _ => true
  | _ => false
  end.

Definition is_attribute_error (e : exn) : bool :=
  match e with
  | AttributeError _ => true
  | _ => false
  end.

(** [e] is the [ModuleNotFoundError] for the module [name]. *)
Definition is_missing (e : exn) (name : string) : bool :=
  match e with
  | ModuleNotFoundError n => String.eqb n name
  | _ => false
  end.

Inductive result (A : Type) : Type :=
| Ok (a : A)
| Raise (e : exn).
Arguments Ok {A} a.
Arguments Raise {A} e.

(** What a module binds to a name.  The launcher only ever calls the value
    with no argument, so a callable is modelled by what that call does:
    return, or raise.  [NotCallable] is any other object, a module
    object too. *)
Inductive value : Type :=
| Callable (raises : option exn)
| NotCallable.

(** ** The file system as the import system sees it *)

(** A module's source, by what executing it does: the body runs to its end
    or raises, and binds the global names listed. *)
Record module_code := {
  mc_raises : option exn;
  mc_globals : list (string * value)
}.

(** What a directory holds under a module name, as the file finder of that
    directory reports it: a module file ([name.py] and the like), a
    regular package (a directory [name] with an [__init__]), or a
    directory [name] without [__init__], which is a portion of a namespace
    package.  A package or namespace directory holds further names. *)
#[warnings="-register-all"] Inductive node : Type :=
| ModuleFile (code : module_code)
| RegularPackage (init : module_code) (children : list (string * node))
| NamespaceDir (children : list (string * node)).

(** What a package directory holds, by name. *)
Definition contents := list (string * node).

(** A directory is named by the names of its absolute path. *)
Definition directory := list string.

(** [fs d name] is what the directory [d] holds under [name], if
    anything. *)
Definition filesystem := directory -> string -> option node.

Fixpoint assoc {A : Type} (k : string) (l : list (string * A)) : option A :=
  match l with
  | [] => None
  | (k', a) :: l' => if String.eqb k k' then Some a else assoc k l'
  end.

(** ** The interpreter state the launcher touches *)

Record process := {
  sys_path : list string;
  cwd : string
}.

(** The directory a search path entry denotes: an absolute entry names it,
    any other entry (the empty one too) is taken from the working
    directory. *)
Definition entry_directory (wd entry : string) : directory :=
  if PyStr.isabs entry then PurePath.tail (PurePath.parse entry)
  else (PurePath.tail (PurePath.parse wd)
        ++ PurePath.tail (PurePath.parse entry))%list.

(** ** The path based finder *)

Definition is_namespace (n : node) : bool :=
  match n with
  | NamespaceDir _ => true
  | _ => false
  end.

(** The locations of a search are tried in order.  The first one that
    holds the name as a module file or a regular package wins; locations
    that hold nothing, or a directory without [__init__], are passed
    over. *)
Fixpoint first_loader (candidates : list (option node)) : option node :=
  match candidates with
  | [] => None
  | None :: rest => first_loader rest
  | Some n :: rest => if is_namespace n then first_loader rest else Some n
  end.

(** The directories without [__init__] met on the way, in order: the
    portions of a namespace package, used when nothing wins. *)
Fixpoint namespace_dirs (candidates : list (option node)) : list contents :=
  match candidates with
  | [] => []
  | Some (NamespaceDir children) :: rest => children :: namespace_dirs rest
  | _ :: rest => namespace_dirs rest
  end.

(** What each entry of the search path holds under a name. *)
Definition candidates_on_path (fs : filesystem) (p : process) (name : string)
    : list (option node) :=
  map (fun entry => fs (entry_directory (cwd p) entry) name) (sys_path p).

(** What each directory of a package's [__path__] holds under a name. *)
Definition candidates_in (path : list contents) (name : string)
    : list (option node) :=
  map (assoc name) path.

(** The finder run in a process: the module file or regular package that
    wins on the search path, and the namespace portions on it. *)
Definition path_find (fs : filesystem) (p : process) (name : string)
    : option node :=
  first_loader (candidates_on_path fs p name).

Definition namespace_portions (fs : filesystem) (p : process) (name : string)
    : list contents :=
  namespace_dirs (candidates_on_path fs p name).

(** ** Loading *)

(** A loaded module: the names it binds and, for a package, the
    directories its submodules are searched in ([__path__]). *)
Record module_obj := {
  mo_globals : list (string * value);
  mo_path : option (list contents)
}.

Definition exec_code (code : module_code) (path : option (list contents))
    : result module_obj :=
  match mc_raises code with
  | Some e => Raise e
  | None => Ok {| mo_globals := mc_globals code; mo_path := path |}
  end.

(** Loading what was found: a module file runs its body, a regular package
    runs its [__init__] and searches its own directory, a namespace
    directory runs nothing. *)
Definition load_node (n : node) : result module_obj :=
  match n with
  | ModuleFile code => exec_code code None
  | RegularPackage init children => exec_code init (Some [children])
  | NamespaceDir children => Ok {| mo_globals := []; mo_path := Some [children] |}
  end.

(** Find and load the module [fullname] among the candidates: the winner
    if there is one, else the namespace package of the portions met, else
    [ModuleNotFoundError]. *)
Definition load (candidates : list (option node)) (fullname : string)
    : result module_obj :=
  match first_loader candidates with
  | Some n => load_node n
  | None =>
      match namespace_dirs candidates with
      | [] => Raise (ModuleNotFoundError fullname)
      | portions => Ok {| mo_globals := []; mo_path := Some portions |}
      end
  end.

(** The submodule [name] of a loaded parent: a parent that is no package
    has none. *)
Definition import_submodule (parent : module_obj) (fullname name : string)
    : result module_obj :=
  match mo_path parent with
  | None => Raise (ModuleNotFoundError fullname)
  | Some path => load (candidates_in path name) fullname
  end.

(** [from modname import attr], the module being loaded: a name the module
    binds is read; for a package that does not bind it, the submodule of
    that name is imported and is the value; otherwise the statement raises
    [ImportError] ("cannot import name").  A submodule that is merely
    missing is no error of its own. *)
Definition from_module (m : module_obj) (modname attr : string)
    : result value :=
  match assoc attr (mo_globals m) with
  | Some v => Ok v
  | None =>
      match mo_path m with
      | None => Raise (ImportError attr modname)
      | Some path =>
          match load (candidates_in path attr) (modname ++ "." ++ attr) with
          | Ok _ => Ok NotCallable
          | Raise e =>
              if is_missing e (modname ++ "." ++ attr)
              then Raise (ImportError attr modname)
              else Raise e
          end
      end
  end.

(** [from pkg.sub import attr] with the parent [pkg] loaded or failed. *)
Definition import_via (parent : result module_obj) (pkg sub attr : string)
    : result value :=
  match parent with
  | Raise e => Raise e
  | Ok parent_module =>
      match import_submodule parent_module (pkg ++ "." ++ sub) sub with
      | Raise e => Raise e
      | Ok m => from_module m (pkg ++ "." ++ sub) attr
      end
  end.

(** [from pkg.sub import attr], for modules not loaded yet: [pkg] is found
    on the search path and loaded, [sub] is found in it and loaded, then
    the name is read. *)
Definition load_from (fs : filesystem) (p : process) (pkg sub attr : string)
    : result value :=
  import_via (load (candidates_on_path fs p pkg) pkg) pkg sub attr.

(** ** The monad of module level code *)

(** What the launcher does, in the order it does it. *)
Inductive event : Type :=
| EvInsert (index : Z) (entry : string)
| EvImport (module_name attr : string)
| EvCall (callee : string).

Record run (A : Type) := {
  trace : list event;
  final : process;
  res : result A
}.
Arguments trace {A} r.
Arguments final {A} r.
Arguments res {A} r.

Definition M (A : Type) : Type := filesystem -> process -> run A.

Definition ret {A : Type} (a : A) : M A :=
  fun _ p => {| trace := []; final := p; res := Ok a |}.

(** Sequencing: an exception of the first part ends the run; nothing
    catches it. *)
Definition bind {A B : Type} (m : M A) (k : A -> M B) : M B :=
  fun fs p =>
    let r := m fs p in
    match res r with
    | Ok a =>
        let r' := k a fs (final r) in
        {| trace := (trace r ++ trace r')%list; final := final r'; res := res r' |}
    | Raise e => {| trace := trace r; final := final r; res := Raise e |}
    end.

Notation "x <- m ;; k" := (bind m (fun x => k))
  (at level 61, m at next level, right associativity).
Notation "m ;; k" := (bind m (fun _ => k))
  (at level 61, right associativity).

(** [sys.path.insert(i, entry)] *)
Definition sys_path_insert (i : Z) (entry : string) : M unit :=
  fun _ p =>
    {| trace := [EvInsert i entry];
       final := {| sys_path := list_insert i entry (sys_path p); cwd := cwd p |};
       res := Ok tt |}.

(** [from pkg.sub import attr] *)
Definition import_from (pkg sub attr : string) : M value :=
  fun fs p =>
    {| trace := [EvImport (pkg ++ "." ++ sub) attr];
       final := p;
       res := load_from fs p pkg sub attr |}.

(** [callee()], the value bound to [callee] being [v]. *)
Definition call (callee : string) (v : value) : M unit :=
  fun _ p =>
    match v with
    | Callable raises =>
        {| trace := [EvCall callee];
           final := p;
           res := match raises with Some e => Raise e | None => Ok tt end |}
    | NotCallable =>
        {| trace := [];
           final := p;
           res := Raise (TypeError "object is not callable") |}
    end.

(** ** The launcher *)

(** Lines 9 and 10: the root is the parent of the launcher's own path, and
    it is put in front of the search path as a string. *)
Definition register_root (__file__ : string) : M unit :=
  let project_root := PurePath.parent (PurePath.parse __file__) in
  sys_path_insert 0 (PurePath.to_str project_root).

(** The module [run_app], executed with the given [__file__] and
    [__name__]. *)
Definition run_app (__file__ __name__ : string) : M unit :=
  register_root __file__ ;;
  main <- import_from "backend" "main" "main" ;;
  if String.eqb __name__ "__main__" then call "main" main else ret tt.

(** The registration executed [n] times in a row. *)
Fixpoint register_times (n : nat) (__file__ : string) : M unit :=
  match n with
  | O => ret tt
  | S n' => register_root __file__ ;; register_times n' __file__
  end.

(** The launcher file's place and the directory it lies in, as the caller
    names them from its working directory. *)
Definition launcher_location (wd __file__ : string) : directory :=
  entry_directory wd __file__.

Definition launcher_directory (wd __file__ : string) : directory :=
  removelast (launcher_location wd __file__).

(** The launcher's path names a file: it has a last name. *)
Definition names_a_file (__file__ : string) : Prop :=
  PurePath.tail (PurePath.parse __file__) <> [].

(** The root as the launcher registers it: [str(project_root)]. *)
Definition root_entry (__file__ : string) : string :=
  PurePath.to_str (PurePath.parent (PurePath.parse __file__)).

(** The launcher's import, seen from a process: the state the import
    statement runs in, and what it yields there. *)
Definition registered (__file__ : string) (fs : filesystem) (p : process)
    : process :=
  final (register_root __file__ fs p).

Definition entry_point (__file__ : string) (fs : filesystem) (p : process)
    : result value :=
  load_from fs (registered __file__ fs p) "backend" "main" "main".

(** Counting the effects of a run. *)
Definition is_import (e : event) : bool :=
  match e with EvImport _ _ => true | _ => false end.

Definition is_call (e : event) : bool :=
  match e with EvCall _ => true | _ => false end.

Definition imports {A : Type} (r : run A) : nat :=
  length (filter is_import (trace r)).

Definition calls {A : Type} (r : run A) : nat :=
  length (filter is_call (trace r)).


(** The launcher's file executed by the interpreter, once lines 5 and 6
    have bound [sys] and [Path].  [__file__] is a global that the
    interpreter sets for a file it runs or imports; code read from
    elsewhere has none, and line 9 then raises [NameError] before anything
    is registered. *)
Definition run_file (__file__ : option string) (__name__ : string) : M unit :=
  match __file__ with
  | Some path => run_app path __name__
  | None =>
      fun _ p =>
        {| trace := []; final := p; res := Raise (NameError "__file__") |}
  end.


(** The locations of one search differ from those of another only in that
    the first location is repeated. *)
Inductive stutter {A : Type} : list A -> list A -> Prop :=
| stutter_same (l : list A) : stutter l l
| stutter_repeat (x : A) (n : nat) (rest : list A) :
    stutter (repeat x (S n) ++ rest)%list (x :: rest).

(** Two loaded modules that differ at most by such repetitions in their
    search directories. *)
Definition same_module (m1 m2 : module_obj) : Prop :=
  mo_globals m1 = mo_globals m2
  /\ match mo_path m1, mo_path m2 with
     | Some path1, Some path2 => stutter path1 path2
     | None, None => True
     | _, _ => False
     end.

Definition same_load (r1 r2 : result module_obj) : Prop :=
  match r1, r2 with
  | Ok m1, Ok m2 => same_module m1 m2
  | Raise e1, Raise e2 => e1 = e2
  | _, _ => False
  end.

(** ** Example installations *)

(** A module source that loads and binds nothing. *)
Definition empty_code : module_code :=
  {| mc_raises := None; mc_globals := [] |}.

(** A module file that loads and binds the given globals. *)
Definition module_with (globals : list (string * value)) : node :=
  ModuleFile {| mc_raises := None; mc_globals := globals |}.

(** A regular [backend] package whose [main] module binds the given
    globals. *)
Definition backend_with (globals : list (string * value)) : node :=
  RegularPackage empty_code [("main", module_with globals)].

(** The project in [/proj], with an entry point that returns. *)
Definition fs_proj : filesystem :=
  fun d name =>
    match d, name with
    | ["proj"], "backend" => Some (backend_with [("main", Callable None)])
    | _, _ => None
    end.

(** The project in [/proj], its [backend/main.py] binding no [main]. *)
Definition fs_no_main : filesystem :=
  fun d name =>
    match d, name with
    | ["proj"], "backend" => Some (backend_with [("helper", NotCallable)])
    | _, _ => None
    end.

(** The project in [/proj], and another [backend] installed in the
    interpreter's site-packages directory. *)
Definition fs_shadowed : filesystem :=
  fun d name =>
    match d, name with
    | ["proj"], "backend" => Some (backend_with [("main", Callable None)])
    | ["usr"; "lib"; "python3"; "site-packages"], "backend" =>
        Some (backend_with [("main", NotCallable)])
    | _, _ => None
    end.

(** The project in [/proj], with an entry point that raises. *)
Definition fs_failing : filesystem :=
  fun d name =>
    match d, name with
    | ["proj"], "backend" =>
        Some (backend_with
                [("main", Callable (Some (OtherException "RuntimeError" "boom")))])
    | _, _ => None
    end.


(** The project in [/proj] holds no [backend]; the site-packages directory
    holds one. *)
Definition fs_installed : filesystem :=
  fun d name =>
    match d, name with
    | ["usr"; "lib"; "python3"; "site-packages"], "backend" =>
        Some (backend_with [("main", Callable None)])
    | _, _ => None
    end.

(** The project in [/proj] with [backend/main.py] but no
    [backend/__init__.py], and a regular [backend] in the site-packages
    directory whose [main] cannot be called. *)
Definition fs_namespace_sibling : filesystem :=
  fun d name =>
    match d, name with
    | ["proj"], "backend" =>
        Some (NamespaceDir [("main", module_with [("main", Callable None)])])
    | ["usr"; "lib"; "python3"; "site-packages"], "backend" =>
        Some (backend_with [("main", NotCallable)])
    | _, _ => None
    end.


(** The project in [/proj] where [backend.main] is itself a package: its
    [__init__] binds no [main], and it has a submodule [main]. *)
Definition fs_main_package : filesystem :=
  fun d name =>
    match d, name with
    | ["proj"], "backend" =>
        Some (RegularPackage empty_code
                [("main",
                  RegularPackage empty_code
                    [("main", module_with [("main", Callable None)])])])
    | _, _ => None
    end.

(** The project in [/proj] holds the module file [backend.py]; the
    site-packages directory holds a complete regular [backend]. *)
Definition fs_module_file : filesystem :=
  fun d name =>
    match d, name with
    | ["proj"], "backend" => Some (module_with [("main", Callable None)])
    | ["usr"; "lib"; "python3"; "site-packages"], "backend" =>
        Some (backend_with [("main", Callable None)])
    | _, _ => None
    end.

(** Two [backend] directories without [__init__.py]: the one in [/proj]
    holds a directory [main] without [__init__.py], the one in the
    site-packages directory holds [main.py]. *)
Definition fs_portions : filesystem :=
  fun d name =>
    match d, name with
    | ["proj"], "backend" =>
        Some (NamespaceDir [("main", NamespaceDir [("helper", module_with [])])])
    | ["usr"; "lib"; "python3"; "site-packages"], "backend" =>
        Some (NamespaceDir [("main", module_with [("main", Callable None)])])
    | _, _ => None
    end.

(** The project in [/proj] where [backend.main] is a package that binds no
    [main] and whose submodule [main] raises the [ModuleNotFoundError] of
    its own name. *)
Definition fs_missing_in_submodule : filesystem :=
  fun d name =>
    match d, name with
    | ["proj"], "backend" =>
        Some (RegularPackage empty_code
                [("main",
                  RegularPackage empty_code
                    [("main",
                      ModuleFile
                        {| mc_raises :=
                             Some (ModuleNotFoundError "backend.main.main");
                           mc_globals := [] |})])])
    | _, _ => None
    end.

(** No [backend] anywhere. *)
Definition fs_bare : filesystem := fun _ _ => None.



(** A process started in [/tmp] with the interpreter's own entries. *)
Definition proc_tmp : process :=
  {| sys_path := ["/usr/lib/python3"; "/usr/lib/python3/site-packages"];
     cwd := "/tmp" |}.

(** A process started in the project's directory. *)
Definition proc_proj : process :=
  {| sys_path := ["/usr/lib/python3"]; cwd := "/proj" |}.



(** * Strings and paths *)

Module PyStrFacts.
Import PyStr.

(** A string without separator is one field. *)
Lemma split_sep_free (s : string) : sep_free s = true -> split s = [s].
Proof.
  induction s as [|c s IH]; simpl; intros H; [reflexivity|].
  apply andb_true_iff in H as [Hc Hs].
  apply negb_true_iff in Hc. rewrite Hc, (IH Hs). reflexivity.
Qed.

(** A field, a separator, the rest: the field is split off. *)
Lemma split_field (x rest : string) :
  sep_free x = true -> split (x ++ String "/" rest) = x :: split rest.
Proof.
  induction x as [|c x IH]; simpl; intros H; [reflexivity|].
  apply andb_true_iff in H as [Hc Hx].
  apply negb_true_iff in Hc. rewrite Hc, (IH Hx). reflexivity.
Qed.

Lemma split_join (names : list string) :
  names <> [] -> Forall (fun x => sep_free x = true) names ->
  split (join names) = names.
Proof.
  induction names as [|x [|y names] IH]; intros Hne Hall.
  - contradiction.
  - simpl. apply split_sep_free. now inversion Hall.
  - inversion Hall as [|? ? Hx Hrest]; subst.
    change (join (x :: y :: names)) with (x ++ String "/" (join (y :: names))).
    rewrite (split_field _ _ Hx). f_equal. apply IH; [discriminate|assumption].
Qed.

(** The fields of a split hold no separator. *)
Lemma split_fields_sep_free (s : string) :
  Forall (fun x => sep_free x = true) (split s).
Proof.
  induction s as [|c s IH]; simpl.
  - repeat constructor.
  - destruct (is_sep c) eqn:Hc.
    + constructor; [reflexivity|assumption].
    + destruct (split s) as [|f fs]; [repeat constructor; simpl; now rewrite Hc|].
      inversion IH; subst. constructor; [|assumption].
      simpl. rewrite Hc. assumption.
Qed.

Lemma isabs_append (x y : string) :
  x <> EmptyString -> isabs (x ++ y) = isabs x.
Proof. destruct x; [contradiction|reflexivity]. Qed.

Lemma sep_free_not_abs (x : string) : sep_free x = true -> isabs x = false.
Proof.
  destruct x as [|c x]; simpl; [reflexivity|].
  intros H. apply andb_true_iff in H as [Hc _]. now apply negb_true_iff in Hc.
Qed.

End PyStrFacts.

Module PurePathFacts.
Import PyStr PyStrFacts PurePath.

Lemma splitroot_root (s : string) :
  fst (splitroot s) = EmptyString \/ fst (splitroot s) = "/" \/ fst (splitroot s) = "//".
Proof.
  destruct s as [|c1 [|c2 [|c3 s]]]; simpl; auto;
    repeat match goal with
           | |- context [if is_sep ?c then _ else _] => destruct (is_sep c); simpl
           end; auto.
Qed.

(** The root is not empty exactly when the string starts with a slash. *)
Lemma splitroot_isabs (s : string) :
  negb (String.eqb (fst (splitroot s)) EmptyString) = isabs s.
Proof.
  destruct s as [|c1 [|c2 [|c3 s]]]; simpl; auto;
    repeat match goal with
           | |- context [if is_sep ?c then _ else _] =>
               destruct (is_sep c) eqn:?; simpl
           end; auto.
Qed.

Lemma parse_root (s : string) : root (parse s) = fst (splitroot s).
Proof. unfold parse. now destruct (splitroot s). Qed.

Lemma parse_tail (s : string) :
  tail (parse s) = filter kept (split (snd (splitroot s))).
Proof. unfold parse. now destruct (splitroot s). Qed.

Lemma parse_wf (s : string) : wf (parse s).
Proof.
  split.
  - rewrite parse_root. apply splitroot_root.
  - rewrite parse_tail. apply Forall_forall. intros x Hx.
    now apply filter_In in Hx.
  - rewrite parse_tail. apply Forall_forall. intros x Hx.
    apply filter_In in Hx as [Hx _].
    pose proof (split_fields_sep_free (snd (splitroot s))) as H.
    rewrite Forall_forall in H. now apply H.
Qed.

Lemma Forall_removelast {A : Type} (P : A -> Prop) (l : list A) :
  Forall P l -> Forall P (removelast l).
Proof.
  induction 1 as [|x l Hx Hl IH]; simpl; [constructor|].
  destruct l; [constructor|]. constructor; assumption.
Qed.

Lemma parent_wf (p : t) : wf p -> wf (parent p).
Proof.
  intros [Hr Hk Hn]. unfold parent.
  destruct (tail p) eqn:Ht; [split; rewrite ?Ht; assumption|].
  split; cbn [root tail]; [assumption| |]; now apply Forall_removelast.
Qed.

Lemma is_absolute_parse (s : string) : is_absolute (parse s) = isabs s.
Proof. unfold is_absolute. rewrite parse_root. apply splitroot_isabs. Qed.

Lemma is_absolute_parent (p : t) : is_absolute (parent p) = is_absolute p.
Proof. unfold parent, is_absolute. now destruct (tail p). Qed.

Lemma kept_not_empty (x : string) : kept x = true -> x <> EmptyString.
Proof. intros H ->. discriminate. Qed.

(** The joined names of a well-formed path do not start with a slash. *)
Lemma join_not_abs (names : list string) :
  Forall (fun x => kept x = true) names ->
  Forall (fun x => sep_free x = true) names ->
  isabs (join names) = false.
Proof.
  intros Hk Hn. destruct names as [|x [|y names]]; [reflexivity| |];
    inversion Hk; inversion Hn; subst.
  - simpl. now apply sep_free_not_abs.
  - change (join (x :: y :: names)) with (x ++ String "/" (join (y :: names))).
    rewrite isabs_append by now apply kept_not_empty.
    now apply sep_free_not_abs.
Qed.

(** [str] of a well-formed path starts with a slash exactly when the path
    has a root. *)
Lemma isabs_to_str (p : t) : wf p -> isabs (to_str p) = is_absolute p.
Proof.
  intros [Hr Hk Hn]. unfold to_str, is_absolute.
  destruct Hr as [-> | [-> | ->]]; simpl.
  - destruct (tail p) eqn:Ht; [reflexivity|].
    rewrite <- Ht in *. now apply join_not_abs.
  - reflexivity.
  - reflexivity.
Qed.

Lemma filter_kept_id (names : list string) :
  Forall (fun x => kept x = true) names -> filter kept names = names.
Proof.
  induction 1 as [|x l Hx Hl IH]; simpl; [reflexivity|]. now rewrite Hx, IH.
Qed.

(** The first character of joined names is no separator, so the root
    splitter sees where the root ends. *)
Lemma join_first (names : list string) :
  names <> [] ->
  Forall (fun x => kept x = true) names ->
  Forall (fun x => sep_free x = true) names ->
  exists c rest, join names = String c rest /\ is_sep c = false.
Proof.
  intros Hne Hk Hn. pose proof (join_not_abs names Hk Hn) as Habs.
  destruct (join names) as [|c rest] eqn:Hj.
  - exfalso. destruct names as [|x [|y names]]; [contradiction| |].
    + inversion Hk as [|? ? Hx _]; subst. simpl in Hj.
      now apply kept_not_empty in Hx.
    + change (join (x :: y :: names))
        with (x ++ String "/" (join (y :: names))) in Hj.
      destruct x; discriminate.
  - exists c, rest. split; [reflexivity|exact Habs].
Qed.

(** Parsing what [str] printed gives the names back. *)
Lemma parse_to_str_tail (p : t) : wf p -> tail (parse (to_str p)) = tail p.
Proof.
  intros [Hr Hk Hn]. rewrite parse_tail. unfold to_str.
  destruct (tail p) as [|x names] eqn:Ht.
  - destruct Hr as [-> | [-> | ->]]; reflexivity.
  - rewrite <- Ht in *.
    assert (Hne : tail p <> []) by (rewrite Ht; discriminate).
    destruct (join_first _ Hne Hk Hn) as (c & rest & Hj & Hc).
    assert (Hsplit : filter kept (split (join (tail p))) = tail p)
      by (rewrite split_join by assumption; now apply filter_kept_id).
    destruct Hr as [-> | [-> | ->]].
    + replace (match tail p with
               | [] => "."
               | _ :: _ => EmptyString ++ join (tail p)
               end)
        with (join (tail p)) by (rewrite Ht at 2; reflexivity).
      rewrite Hj in *. simpl. rewrite Hc. simpl. exact Hsplit.
    + simpl. rewrite Hj in *. simpl. rewrite Hc. simpl. exact Hsplit.
    + simpl. rewrite Hj in *. simpl. rewrite Hc. simpl. exact Hsplit.
Qed.

End PurePathFacts.

Module PurePathRoundTrip.
Import PyStr PyStrFacts PurePath PurePathFacts.

(** Parsing what [str] printed gives the root back. *)
Lemma parse_to_str_root (p : t) : wf p -> root (parse (to_str p)) = root p.
Proof.
  intros [Hr Hk Hn]. rewrite parse_root. unfold to_str.
  destruct (tail p) as [|x names] eqn:Ht.
  - destruct Hr as [-> | [-> | ->]]; reflexivity.
  - rewrite <- Ht in *.
    assert (Hne : tail p <> []) by (rewrite Ht; discriminate).
    destruct (join_first _ Hne Hk Hn) as (c & rest & Hj & Hc).
    destruct Hr as [-> | [-> | ->]].
    + replace (match tail p with
               | [] => "."
               | _ :: _ => EmptyString ++ join (tail p)
               end)
        with (join (tail p)) by (rewrite Ht at 2; reflexivity).
      rewrite Hj. simpl. now rewrite Hc.
    + simpl. rewrite Hj. simpl. now rewrite Hc.
    + simpl. rewrite Hj. simpl. now rewrite Hc.
Qed.

Lemma path_eq (p q : t) : root p = root q -> tail p = tail q -> p = q.
Proof. destruct p, q; simpl; intros -> ->; reflexivity. Qed.

(** [Path(str(p)) == p] for every path the parser can produce. *)
Lemma parse_to_str (p : t) : wf p -> parse (to_str p) = p.
Proof.
  intros Hwf. apply path_eq;
    [now apply parse_to_str_root | now apply parse_to_str_tail].
Qed.

(** [str] of a parsed path is never the empty string. *)
Lemma to_str_not_empty (p : t) : wf p -> to_str p <> EmptyString.
Proof.
  intros [Hr Hk Hn]. unfold to_str.
  destruct (tail p) as [|x names] eqn:Ht.
  - destruct Hr as [-> | [-> | ->]]; discriminate.
  - rewrite <- Ht in *.
    assert (Hne : tail p <> []) by (rewrite Ht; discriminate).
    destruct (join_first _ Hne Hk Hn) as (c & rest & Hj & Hc).
    destruct Hr as [-> | [-> | ->]]; rewrite Ht, <- Ht, Hj; discriminate.
Qed.

End PurePathRoundTrip.

(** * The finder and the loader *)

Section Finder.

Lemma map_stutter {A B : Type} (g : A -> B) (l1 l2 : list A) :
  stutter l1 l2 -> stutter (map g l1) (map g l2).
Proof.
  intros [l | x n rest]; [constructor|].
  rewrite map_app, map_repeat. apply (stutter_repeat (g x) n (map g rest)).
Qed.

Lemma stutter_front {A : Type} (x : A) (n : nat) (rest : list A) :
  1 <= n -> stutter (repeat x n ++ rest)%list (x :: rest).
Proof.
  destruct n as [|n]; [lia|]. intros _. apply stutter_repeat.
Qed.

(** A location that wins is not looked past. *)
Lemma first_loader_hit (n : node) (rest : list (option node)) :
  is_namespace n = false -> first_loader (Some n :: rest) = Some n.
Proof. intros H. simpl. now rewrite H. Qed.

Lemma first_loader_repeat (x : option node) (n : nat)
    (rest : list (option node)) :
  first_loader (repeat x (S n) ++ rest) = first_loader (x :: rest).
Proof.
  induction n as [|n IH]; [reflexivity|].
  change (repeat x (S (S n)) ++ rest)%list
    with (x :: (repeat x (S n) ++ rest))%list.
  destruct x as [nd|]; cbn [first_loader] in *.
  - destruct (is_namespace nd); [exact IH | reflexivity].
  - exact IH.
Qed.

Lemma first_loader_stutter (c1 c2 : list (option node)) :
  stutter c1 c2 -> first_loader c1 = first_loader c2.
Proof. intros [l | x n rest]; [reflexivity | apply first_loader_repeat]. Qed.

Lemma namespace_dirs_repeat_dir (children : contents) (n : nat)
    (rest : list (option node)) :
  namespace_dirs (repeat (Some (NamespaceDir children)) n ++ rest)
  = (repeat children n ++ namespace_dirs rest)%list.
Proof. induction n as [|n IH]; simpl; [reflexivity | now rewrite IH]. Qed.

Lemma namespace_dirs_repeat_other (x : option node) (n : nat)
    (rest : list (option node)) :
  match x with Some nd => is_namespace nd = false | None => True end ->
  namespace_dirs (repeat x n ++ rest) = namespace_dirs rest.
Proof.
  intros Hx. induction n as [|n IH]; simpl; [reflexivity|].
  destruct x as [[code | init children | children]|];
    try exact IH; discriminate.
Qed.

Lemma namespace_dirs_stutter (c1 c2 : list (option node)) :
  stutter c1 c2 -> stutter (namespace_dirs c1) (namespace_dirs c2).
Proof.
  intros [l | x n rest]; [constructor|].
  destruct x as [[code | init children | children]|].
  - rewrite namespace_dirs_repeat_other by reflexivity. constructor.
  - rewrite namespace_dirs_repeat_other by reflexivity. constructor.
  - rewrite namespace_dirs_repeat_dir. cbn [namespace_dirs].
    apply stutter_repeat.
  - rewrite namespace_dirs_repeat_other by exact I. constructor.
Qed.

Lemma same_module_refl (m : module_obj) : same_module m m.
Proof.
  split; [reflexivity|]. destruct (mo_path m); [constructor | exact I].
Qed.

Lemma same_load_refl (r : result module_obj) : same_load r r.
Proof. destruct r; simpl; [apply same_module_refl | reflexivity]. Qed.

(** Repeating a location changes the module loaded at most by repeating a
    search directory of it. *)
Lemma load_stutter (c1 c2 : list (option node)) (fullname : string) :
  stutter c1 c2 -> same_load (load c1 fullname) (load c2 fullname).
Proof.
  intros Hc. unfold load. rewrite (first_loader_stutter _ _ Hc).
  destruct (first_loader c2) as [n|]; [apply same_load_refl|].
  destruct (namespace_dirs_stutter _ _ Hc) as [l | x n rest].
  - apply same_load_refl.
  - simpl. split; [reflexivity|]. apply (stutter_repeat x n rest).
Qed.

Lemma import_submodule_same (m1 m2 : module_obj) (fullname name : string) :
  same_module m1 m2 ->
  same_load (import_submodule m1 fullname name)
            (import_submodule m2 fullname name).
Proof.
  intros [_ Hpath]. unfold import_submodule.
  destruct (mo_path m1) as [path1|], (mo_path m2) as [path2|];
    try contradiction; [|reflexivity].
  apply load_stutter. unfold candidates_in. now apply map_stutter.
Qed.

Lemma from_module_same (m1 m2 : module_obj) (modname attr : string) :
  same_module m1 m2 ->
  from_module m1 modname attr = from_module m2 modname attr.
Proof.
  intros [Hglobals Hpath]. unfold from_module. rewrite Hglobals.
  destruct (assoc attr (mo_globals m2)); [reflexivity|].
  destruct (mo_path m1) as [path1|], (mo_path m2) as [path2|];
    try contradiction; [|reflexivity].
  pose proof (load_stutter (candidates_in path1 attr) (candidates_in path2 attr)
                (modname ++ "." ++ attr)
                (map_stutter _ _ _ Hpath)) as Hload.
  destruct (load (candidates_in path1 attr) (modname ++ "." ++ attr)),
           (load (candidates_in path2 attr) (modname ++ "." ++ attr));
    simpl in Hload; try contradiction; [reflexivity | now subst].
Qed.

Lemma import_via_same (r1 r2 : result module_obj) (pkg sub attr : string) :
  same_load r1 r2 -> import_via r1 pkg sub attr = import_via r2 pkg sub attr.
Proof.
  destruct r1 as [m1|e1], r2 as [m2|e2]; cbn [same_load import_via];
    try contradiction.
  - intros Hm.
    pose proof (import_submodule_same m1 m2 (pkg ++ "." ++ sub) sub Hm) as Hsub.
    destruct (import_submodule m1 (pkg ++ "." ++ sub) sub),
             (import_submodule m2 (pkg ++ "." ++ sub) sub);
      simpl in Hsub; try contradiction.
    + now apply from_module_same.
    + now subst.
  - now intros ->.
Qed.

End Finder.

(** * The launcher's steps *)

Section Launcher.

Variable fs : filesystem.

Lemma list_insert_front {A : Type} (x : A) (l : list A) :
  list_insert 0 x l = x :: l.
Proof.
  unfold list_insert. simpl.
  destruct (Z.of_nat (length l)); reflexivity.
Qed.

Lemma registered_eq (file : string) (p : process) :
  registered file fs p
  = {| sys_path := root_entry file :: sys_path p; cwd := cwd p |}.
Proof.
  unfold registered, register_root, sys_path_insert. simpl.
  now rewrite list_insert_front.
Qed.

Lemma register_root_run (file : string) (p : process) :
  register_root file fs p
  = {| trace := [EvInsert 0 (root_entry file)];
       final := registered file fs p;
       res := Ok tt |}.
Proof. reflexivity. Qed.

Lemma import_from_run (file : string) (p : process) :
  import_from "backend" "main" "main" fs (registered file fs p)
  = {| trace := [EvImport "backend.main" "main"];
       final := registered file fs p;
       res := entry_point file fs p |}.
Proof. reflexivity. Qed.

(** The whole run, by what the import yields. *)
Lemma run_app_run (file name : string) (p : process) :
  run_app file name fs p =
  let ins := EvInsert 0 (root_entry file) in
  let imp := EvImport "backend.main" "main" in
  let p' := registered file fs p in
  match entry_point file fs p with
  | Raise e => {| trace := [ins; imp]; final := p'; res := Raise e |}
  | Ok v =>
      if String.eqb name "__main__" then
        match v with
        | Callable raises =>
            {| trace := [ins; imp; EvCall "main"]; final := p';
               res := match raises with Some e => Raise e | None => Ok tt end |}
        | NotCallable =>
            {| trace := [ins; imp]; final := p';
               res := Raise (TypeError "object is not callable") |}
        end
      else {| trace := [ins; imp]; final := p'; res := Ok tt |}
  end.
Proof.
  unfold run_app, bind. rewrite register_root_run. cbn [res final trace].
  rewrite import_from_run. cbn [res final trace].
  destruct (entry_point file fs p) as [v|e]; [|reflexivity].
  destruct (String.eqb name "__main__"); [destruct v|]; reflexivity.
Qed.

(** The registered entry denotes the directory the launcher lies in. *)
Lemma root_entry_directory (wd file : string) :
  names_a_file file ->
  entry_directory wd (root_entry file) = launcher_directory wd file.
Proof.
  intros Hfile. unfold launcher_directory, launcher_location, entry_directory,
    root_entry.
  pose proof (PurePathFacts.parent_wf _ (PurePathFacts.parse_wf file)) as Hwf.
  rewrite (PurePathFacts.parse_to_str_tail _ Hwf).
  rewrite (PurePathFacts.isabs_to_str _ Hwf).
  rewrite PurePathFacts.is_absolute_parent, PurePathFacts.is_absolute_parse.
  assert (Hparent : PurePath.tail (PurePath.parent (PurePath.parse file))
                    = removelast (PurePath.tail (PurePath.parse file))).
  { unfold PurePath.parent. unfold names_a_file in Hfile.
    destruct (PurePath.tail (PurePath.parse file)); [contradiction|reflexivity]. }
  rewrite Hparent.
  destruct (PyStr.isabs file); [reflexivity|].
  symmetry. now apply removelast_app.
Qed.

Lemma register_times_path (n : nat) (file : string) (p : process) :
  final (register_times n file fs p)
  = {| sys_path := repeat (root_entry file) n ++ sys_path p; cwd := cwd p |}.
Proof.
  revert p. induction n as [|n IH]; intros p.
  - now destruct p.
  - cbn [register_times]. unfold bind. rewrite register_root_run.
    cbn [res final]. rewrite IH, registered_eq. cbn [sys_path cwd].
    f_equal.
    change (repeat (root_entry file) (S n))
      with (root_entry file :: repeat (root_entry file) n).
    rewrite repeat_cons, <- app_assoc. reflexivity.
Qed.


(** What the search path holds under a name once the root is registered:
    what the root's directory holds, then what the path held before. *)
Lemma candidates_registered (file name : string) (p : process) :
  candidates_on_path fs (registered file fs p) name
  = fs (entry_directory (cwd p) (root_entry file)) name
    :: candidates_on_path fs p name.
Proof. rewrite registered_eq. reflexivity. Qed.

Lemma candidates_register_times (n : nat) (file name : string) (p : process) :
  candidates_on_path fs (final (register_times n file fs p)) name
  = (repeat (fs (entry_directory (cwd p) (root_entry file)) name) n
     ++ candidates_on_path fs p name)%list.
Proof.
  rewrite register_times_path. unfold candidates_on_path. cbn [sys_path cwd].
  now rewrite map_app, map_repeat.
Qed.

(** The outcome of a run, by the outcomes of its import and of its call. *)
Lemma run_app_res (file name : string) (p : process) :
  res (run_app file name fs p)
  = match res (import_from "backend" "main" "main" fs (registered file fs p)) with
    | Raise e => Raise e
    | Ok main =>
        if String.eqb name "__main__"
        then res (call "main" main fs (registered file fs p))
        else Ok tt
    end.
Proof.
  rewrite run_app_run, import_from_run. cbn zeta. cbn [res].
  destruct (entry_point file fs p) as [[raises|]|e]; [| |reflexivity];
    destruct (String.eqb name "__main__"); reflexivity.
Qed.


(** The directory that the registered root denotes. *)
Lemma root_entry_denotes (wd file : string) :
  entry_directory wd (root_entry file)
  = if PyStr.isabs file
    then PurePath.tail (PurePath.parent (PurePath.parse file))
    else (PurePath.tail (PurePath.parse wd)
          ++ PurePath.tail (PurePath.parent (PurePath.parse file)))%list.
Proof.
  unfold entry_directory, root_entry.
  pose proof (PurePathFacts.parent_wf _ (PurePathFacts.parse_wf file)) as Hwf.
  rewrite (PurePathFacts.parse_to_str_tail _ Hwf).
  rewrite (PurePathFacts.isabs_to_str _ Hwf).
  now rewrite PurePathFacts.is_absolute_parent, PurePathFacts.is_absolute_parse.
Qed.

(** A module file or regular package in the root's directory is the one
    the import loads. *)
Lemma load_at_root (file name : string) (p : process) (n : node) :
  fs (entry_directory (cwd p) (root_entry file)) name = Some n ->
  is_namespace n = false ->
  path_find fs (registered file fs p) name = Some n
  /\ load (candidates_on_path fs (registered file fs p) name) name
     = load_node n.
Proof.
  intros Hn Hns. unfold path_find, load. rewrite candidates_registered, Hn.
  now rewrite (first_loader_hit n _ Hns).
Qed.

(** A root directory that holds nothing under a name leaves its search as
    it was. *)
Lemma candidates_skip_root (file name : string) (p : process) :
  fs (entry_directory (cwd p) (root_entry file)) name = None ->
  first_loader (candidates_on_path fs (registered file fs p) name)
  = first_loader (candidates_on_path fs p name)
  /\ namespace_dirs (candidates_on_path fs (registered file fs p) name)
     = namespace_dirs (candidates_on_path fs p name).
Proof. intros Hn. rewrite candidates_registered, Hn. split; reflexivity. Qed.


End Launcher.

(** * The import on sample layouts *)

(** A module file [backend.py] in the first directory ends the search: it
    is no package, so [backend.main] is missing, whatever comes later. *)
Example module_file_is_no_package :
  res (run_app "/proj/run_app.py" "__main__" fs_module_file proc_tmp)
  = Raise (ModuleNotFoundError "backend.main").
Proof. reflexivity. Qed.

(** The portions of a namespace package are searched together: a module
    file [main.py] in the second portion wins over a directory [main]
    without [__init__.py] in the first. *)
Example namespace_portions_are_searched_together :
  namespace_portions fs_portions
    (registered "/proj/run_app.py" fs_portions proc_tmp) "backend"
  = [[("main", NamespaceDir [("helper", module_with [])])];
     [("main", module_with [("main", Callable None)])]]
  /\ entry_point "/proj/run_app.py" fs_portions proc_tmp = Ok (Callable None).
Proof. split; reflexivity. Qed.

(** A submodule that fails with the [ModuleNotFoundError] of its own name
    counts as missing: the statement reports the name it cannot import. *)
Example missing_submodule_is_import_error :
  entry_point "/proj/run_app.py" fs_missing_in_submodule proc_tmp
  = Raise (ImportError "main" "backend.main").
Proof. reflexivity. Qed.

(** * The launcher's contract *)

(** A concrete launcher path has a last name. *)
Ltac has_file_name := unfold names_a_file; simpl; discriminate.




(** C2, as the code has it: the root is the parent of the launcher's path
    as it is written, registered first on the search path.  It denotes the
    directory the launcher file lies in, seen from the working directory,
    and it is an absolute path exactly when the launcher's own path is. *)
Theorem root_is_lexical_parent
    (fs : filesystem) (p : process) (file : string) :
  names_a_file file ->
  sys_path (registered file fs p) = root_entry file :: sys_path p
  /\ entry_directory (cwd p) (root_entry file) = launcher_directory (cwd p) file
  /\ PyStr.isabs (root_entry file) = PyStr.isabs file.
Proof.
  intros Hfile. split; [now rewrite registered_eq|].
  split; [now apply root_entry_directory|].
  unfold root_entry.
  rewrite PurePathFacts.isabs_to_str
    by apply PurePathFacts.parent_wf, PurePathFacts.parse_wf.
  now rewrite PurePathFacts.is_absolute_parent, PurePathFacts.is_absolute_parse.
Qed.

Lemma root_is_lexical_parent_witness :
  sys_path (registered "/proj/run_app.py" fs_proj proc_tmp)
  = root_entry "/proj/run_app.py" :: sys_path proc_tmp
  /\ entry_directory (cwd proc_tmp) (root_entry "/proj/run_app.py")
     = launcher_directory (cwd proc_tmp) "/proj/run_app.py"
  /\ PyStr.isabs (root_entry "/proj/run_app.py") = PyStr.isabs "/proj/run_app.py".
Proof.
  apply (root_is_lexical_parent fs_proj proc_tmp "/proj/run_app.py").
  has_file_name.
Defined.

(** C2 as stated fails: started with the relative path [run_app.py], the
    launcher registers ["."], which is not an absolute path. *)
Lemma relative_file_registers_relative_root :
  hd_error (sys_path (registered "run_app.py" fs_proj proc_proj)) = Some "."
  /\ PyStr.isabs "." = false
  /\ PyStr.isabs "run_app.py" = false.
Proof. repeat split. Qed.

(** C3, as the code has it: the import of [main] from [backend.main] is at
    module level and runs once in every execution of the launcher's file,
    as the top-level program and as a library alike; only the call of
    [main] is under the [__name__] test.  The call happens once when the
    launcher is the top-level program and the import yielded a callable,
    and not at all otherwise. *)
Theorem import_unguarded_call_guarded
    (fs : filesystem) (p : process) (file name : string) :
  imports (run_app file name fs p) = 1
  /\ In (EvImport "backend.main" "main") (trace (run_app file name fs p))
  /\ calls (run_app file name fs p)
     = if String.eqb name "__main__" then
         match entry_point file fs p with
         | Ok (Callable _) => 1
         | _ => 0
         end
       else 0.
Proof.
  rewrite run_app_run. cbn zeta.
  destruct (entry_point file fs p) as [[raises|]|e];
    destruct (String.eqb name "__main__");
    repeat split; simpl; auto.
Qed.

(** C3 as stated fails: loaded as the library module [run_app], the
    launcher still imports [main] from [backend.main]. *)
Lemma library_load_imports_backend :
  String.eqb "run_app" "__main__" = false
  /\ trace (run_app "/proj/run_app.py" "run_app" fs_proj proc_tmp)
     = [EvInsert 0 "/proj"; EvImport "backend.main" "main"]
  /\ imports (run_app "/proj/run_app.py" "run_app" fs_proj proc_tmp) = 1.
Proof. repeat split. Qed.

(** C4: when the launcher's file is loaded under any name other than
    [__main__], that is as a library, the run holds no call at all: the
    entry point is not invoked. *)
Theorem library_import_never_calls_main
    (fs : filesystem) (p : process) (file name : string) :
  name <> "__main__" ->
  calls (run_app file name fs p) = 0
  /\ forall callee, ~ In (EvCall callee) (trace (run_app file name fs p)).
Proof.
  intros Hname. apply String.eqb_neq in Hname.
  rewrite run_app_run. cbn zeta. rewrite Hname.
  destruct (entry_point file fs p) as [v|e]; split; try reflexivity;
    intros callee [H|[H|[]]]; discriminate.
Qed.

Lemma library_import_never_calls_main_witness :
  calls (run_app "/proj/run_app.py" "run_app" fs_proj proc_tmp) = 0
  /\ forall callee,
       ~ In (EvCall callee)
            (trace (run_app "/proj/run_app.py" "run_app" fs_proj proc_tmp)).
Proof.
  apply (library_import_never_calls_main fs_proj proc_tmp
           "/proj/run_app.py" "run_app").
  discriminate.
Defined.

(** C5, as the code has it: the registration puts the root at index 0 of
    the search path and every entry that was there before comes after it,
    one index further.  A module file or a regular package that the root's
    directory holds under a name is therefore the one found and loaded,
    whatever the other entries hold under that name.  A directory without
    [__init__] in the root's directory does not win: what is found is what
    was found before, and the directory is only the first portion of the
    namespace package that is used when no entry wins. *)
Theorem root_registered_first
    (fs : filesystem) (p : process) (file : string) :
  nth_error (sys_path (registered file fs p)) 0 = Some (root_entry file)
  /\ (forall i entry,
        nth_error (sys_path p) i = Some entry ->
        nth_error (sys_path (registered file fs p)) (S i) = Some entry)
  /\ (forall name n,
        fs (entry_directory (cwd p) (root_entry file)) name = Some n ->
        is_namespace n = false ->
        path_find fs (registered file fs p) name = Some n
        /\ load (candidates_on_path fs (registered file fs p) name) name
           = load_node n)
  /\ (forall name children,
        fs (entry_directory (cwd p) (root_entry file)) name
        = Some (NamespaceDir children) ->
        path_find fs (registered file fs p) name = path_find fs p name
        /\ namespace_portions fs (registered file fs p) name
           = children :: namespace_portions fs p name).
Proof.
  split; [now rewrite registered_eq|].
  split; [rewrite registered_eq; cbn [sys_path]; auto|].
  split.
  - intros name n Hn Hns. now apply load_at_root.
  - intros name children Hdir. unfold path_find, namespace_portions.
    rewrite candidates_registered, Hdir. split; reflexivity.
Qed.

(** The project's regular [backend] is found although the site-packages
    directory, further down the search path, holds a [backend] too. *)
Lemma root_registered_first_witness :
  In "/usr/lib/python3/site-packages" (sys_path proc_tmp)
  /\ fs_shadowed (entry_directory "/tmp" "/usr/lib/python3/site-packages")
                 "backend"
     = Some (backend_with [("main", NotCallable)])
  /\ path_find fs_shadowed (registered "/proj/run_app.py" fs_shadowed proc_tmp)
               "backend"
     = Some (backend_with [("main", Callable None)])
  /\ load (candidates_on_path fs_shadowed
             (registered "/proj/run_app.py" fs_shadowed proc_tmp) "backend")
          "backend"
     = load_node (backend_with [("main", Callable None)]).
Proof.
  split; [simpl; auto|]. split; [reflexivity|].
  apply (proj1 (proj2 (proj2 (root_registered_first fs_shadowed proc_tmp
                                "/proj/run_app.py")))
           "backend" (backend_with [("main", Callable None)]));
    reflexivity.
Defined.

(** C5 as stated fails: the project's [backend] directory has a [main.py]
    but no [__init__.py]; the root is first on the search path, and still
    the [backend] of the site-packages directory is the one found and
    imported. *)
Lemma namespace_sibling_found_last :
  nth_error (sys_path (registered "/proj/run_app.py" fs_namespace_sibling
                         proc_tmp)) 0
  = Some "/proj"
  /\ fs_namespace_sibling (entry_directory "/tmp" "/proj") "backend"
     = Some (NamespaceDir [("main", module_with [("main", Callable None)])])
  /\ nth_error (sys_path (registered "/proj/run_app.py" fs_namespace_sibling
                            proc_tmp)) 2
     = Some "/usr/lib/python3/site-packages"
  /\ path_find fs_namespace_sibling
               (registered "/proj/run_app.py" fs_namespace_sibling proc_tmp)
               "backend"
     = Some (backend_with [("main", NotCallable)])
  /\ entry_point "/proj/run_app.py" fs_namespace_sibling proc_tmp
     = Ok NotCallable.
Proof. repeat split. Qed.

(** C6: run as the top-level program, the launcher registers the root,
    then imports [main] from [backend.main], then calls [main], in this
    order and with nothing in between: the import runs with the root
    already first on the search path, and a call, if there is one, comes
    last.  When the import yields a callable [main], the call happens, and
    it happens once. *)
Theorem entry_point_called_once_after_registration
    (fs : filesystem) (p : process) (file : string) :
  (exists rest,
      trace (run_app file "__main__" fs p)
      = EvInsert 0 (root_entry file) :: EvImport "backend.main" "main" :: rest
      /\ (rest = [] \/ rest = [EvCall "main"]))
  /\ hd_error (sys_path (registered file fs p)) = Some (root_entry file)
  /\ (forall raises,
        res (import_from "backend" "main" "main" fs (registered file fs p))
        = Ok (Callable raises) ->
        trace (run_app file "__main__" fs p)
        = [EvInsert 0 (root_entry file); EvImport "backend.main" "main";
           EvCall "main"]
        /\ calls (run_app file "__main__" fs p) = 1).
Proof.
  rewrite run_app_run, import_from_run. cbn zeta. cbn [res].
  split; [|split].
  - destruct (entry_point file fs p) as [[raises|]|e]; cbn;
      eexists; (split; [reflexivity|auto]).
  - now rewrite registered_eq.
  - intros raises ->. split; reflexivity.
Qed.

Lemma entry_point_called_once_after_registration_witness :
  trace (run_app "/proj/run_app.py" "__main__" fs_proj proc_tmp)
  = [EvInsert 0 "/proj"; EvImport "backend.main" "main"; EvCall "main"]
  /\ calls (run_app "/proj/run_app.py" "__main__" fs_proj proc_tmp) = 1.
Proof.
  apply (proj2 (proj2 (entry_point_called_once_after_registration
                         fs_proj proc_tmp "/proj/run_app.py")) None).
  reflexivity.
Defined.

(** C7: whatever exception the import statement raises, and whatever
    exception the call of [main] raises, is the outcome of the launcher's
    run, the same exception object: the run does not go on after it, the
    import is not tried a second time and [main] is not called again. *)
Theorem errors_propagate_unhandled
    (fs : filesystem) (p : process) (file name : string) (e : exn) :
  res (import_from "backend" "main" "main" fs (registered file fs p)) = Raise e
  \/ (exists main,
        res (import_from "backend" "main" "main" fs (registered file fs p))
        = Ok main
        /\ name = "__main__"
        /\ res (call "main" main fs (registered file fs p)) = Raise e) ->
  res (run_app file name fs p) = Raise e
  /\ imports (run_app file name fs p) = 1
  /\ calls (run_app file name fs p) <= 1.
Proof.
  rewrite import_from_run, run_app_run. cbn [res]. cbn zeta.
  intros [Himp | (main & Himp & -> & Hcall)]; rewrite Himp.
  - unfold imports, calls. cbn. repeat split; lia.
  - rewrite String.eqb_refl. unfold imports, calls.
    destruct main as [raises|]; simpl in Hcall.
    + destruct raises as [e'|]; [|discriminate].
      injection Hcall as ->. cbn. repeat split; lia.
    + injection Hcall as <-. cbn. repeat split; lia.
Qed.

Lemma errors_propagate_unhandled_witness :
  res (run_app "/proj/run_app.py" "__main__" fs_failing proc_tmp)
  = Raise (OtherException "RuntimeError" "boom")
  /\ imports (run_app "/proj/run_app.py" "__main__" fs_failing proc_tmp) = 1
  /\ calls (run_app "/proj/run_app.py" "__main__" fs_failing proc_tmp) <= 1.
Proof.
  apply (errors_propagate_unhandled fs_failing proc_tmp "/proj/run_app.py"
           "__main__" (OtherException "RuntimeError" "boom")).
  right. exists (Callable (Some (OtherException "RuntimeError" "boom"))).
  repeat split.
Defined.

(** With no [backend] to be found, the import's own exception is the
    outcome. *)
Example missing_backend_raises :
  res (run_app "/proj/run_app.py" "__main__" fs_bare proc_tmp)
  = Raise (ModuleNotFoundError "backend").
Proof. reflexivity. Qed.

(** C8, as the code has it: when the [backend.main] that the import finds
    is a plain module (a file such as [backend/main.py], not a package)
    that loads but binds no name [main], running the launcher ends with the
    import statement's own [ImportError] for the name [main].  The error is
    of the import error class and not an attribute error, and [main] is
    never called. *)
Theorem missing_main_symbol_raises_import_error
    (fs : filesystem) (p : process) (file : string)
    (parent : module_obj) (path : list contents) (code : module_code) :
  load (candidates_on_path fs (registered file fs p) "backend") "backend"
  = Ok parent ->
  mo_path parent = Some path ->
  first_loader (candidates_in path "main") = Some (ModuleFile code) ->
  mc_raises code = None ->
  assoc "main" (mc_globals code) = None ->
  exists e,
    res (run_app file "__main__" fs p) = Raise e
    /\ e = ImportError "main" "backend.main"
    /\ is_import_error e = true
    /\ is_attribute_error e = false
    /\ calls (run_app file "__main__" fs p) = 0.
Proof.
  intros Hparent Hpath Hfind Hbody Hattr.
  assert (He : entry_point file fs p = Raise (ImportError "main" "backend.main")).
  { unfold entry_point, load_from. rewrite Hparent.
    unfold import_via, import_submodule. rewrite Hpath.
    unfold load. rewrite Hfind. cbn [load_node]. unfold exec_code.
    rewrite Hbody. unfold from_module. cbn [mo_globals mo_path].
    now rewrite Hattr. }
  exists (ImportError "main" "backend.main").
  rewrite run_app_run, He. repeat split.
Qed.

Lemma missing_main_symbol_raises_import_error_witness :
  exists e,
    res (run_app "/proj/run_app.py" "__main__" fs_no_main proc_tmp) = Raise e
    /\ e = ImportError "main" "backend.main"
    /\ is_import_error e = true
    /\ is_attribute_error e = false
    /\ calls (run_app "/proj/run_app.py" "__main__" fs_no_main proc_tmp) = 0.
Proof.
  apply (missing_main_symbol_raises_import_error
           fs_no_main proc_tmp "/proj/run_app.py"
           {| mo_globals := [];
              mo_path := Some [[("main", module_with [("helper", NotCallable)])]] |}
           [[("main", module_with [("helper", NotCallable)])]]
           {| mc_raises := None; mc_globals := [("helper", NotCallable)] |});
    reflexivity.
Defined.

(** C8 as stated fails: with a [backend/main.py] that binds no [main], the
    launcher ends with an [ImportError], which is no attribute error. *)
Lemma missing_main_symbol_is_no_attribute_error :
  path_find fs_no_main (registered "/proj/run_app.py" fs_no_main proc_tmp)
            "backend"
  = Some (backend_with [("helper", NotCallable)])
  /\ res (run_app "/proj/run_app.py" "__main__" fs_no_main proc_tmp)
     = Raise (ImportError "main" "backend.main")
  /\ is_attribute_error (ImportError "main" "backend.main") = false.
Proof. repeat split. Qed.

(** When [backend.main] is a package that binds no [main] but has a
    submodule [main], the import yields that submodule and the run fails
    only at the call. *)
Example main_package_yields_submodule :
  entry_point "/proj/run_app.py" fs_main_package proc_tmp = Ok NotCallable
  /\ res (run_app "/proj/run_app.py" "__main__" fs_main_package proc_tmp)
     = Raise (TypeError "object is not callable").
Proof. split; reflexivity. Qed.

(** C9: the registration is not idempotent.  Run [n] times, for any [n] of
    at least two, it leaves the root [n] times in front of the search path,
    [n] more occurrences than before and a path other than after one run;
    the finder and the import of the entry point give the same result as
    after one run. *)
Theorem registration_not_idempotent
    (fs : filesystem) (p : process) (file : string) (n : nat) :
  2 <= n ->
  sys_path (final (register_times n file fs p))
  = (repeat (root_entry file) n ++ sys_path p)%list
  /\ count_occ string_dec (sys_path (final (register_times n file fs p)))
               (root_entry file)
     = n + count_occ string_dec (sys_path p) (root_entry file)
  /\ sys_path (final (register_times n file fs p))
     <> sys_path (registered file fs p)
  /\ (forall name,
        path_find fs (final (register_times n file fs p)) name
        = path_find fs (registered file fs p) name)
  /\ load_from fs (final (register_times n file fs p)) "backend" "main" "main"
     = entry_point file fs p.
Proof.
  intros Hn.
  assert (Hst : forall name,
             stutter
               (candidates_on_path fs (final (register_times n file fs p)) name)
               (candidates_on_path fs (registered file fs p) name)).
  { intros name. rewrite candidates_register_times, candidates_registered.
    apply stutter_front. lia. }
  split; [now rewrite register_times_path|]. split.
  { rewrite register_times_path. cbn [sys_path].
    rewrite count_occ_app, count_occ_repeat_eq; reflexivity. }
  split.
  { rewrite register_times_path, registered_eq. cbn [sys_path].
    intros Heq. apply (f_equal (@length string)) in Heq.
    rewrite length_app, repeat_length in Heq. simpl in Heq. lia. }
  split.
  - intros name. unfold path_find. apply first_loader_stutter, Hst.
  - unfold entry_point, load_from. apply import_via_same, load_stutter, Hst.
Qed.

Lemma registration_not_idempotent_witness :
  sys_path (final (register_times 3 "/proj/run_app.py" fs_proj proc_tmp))
  = (repeat (root_entry "/proj/run_app.py") 3 ++ sys_path proc_tmp)%list
  /\ count_occ string_dec
       (sys_path (final (register_times 3 "/proj/run_app.py" fs_proj proc_tmp)))
       (root_entry "/proj/run_app.py")
     = 3 + count_occ string_dec (sys_path proc_tmp) (root_entry "/proj/run_app.py")
  /\ sys_path (final (register_times 3 "/proj/run_app.py" fs_proj proc_tmp))
     <> sys_path (registered "/proj/run_app.py" fs_proj proc_tmp)
  /\ (forall name,
        path_find fs_proj
          (final (register_times 3 "/proj/run_app.py" fs_proj proc_tmp)) name
        = path_find fs_proj (registered "/proj/run_app.py" fs_proj proc_tmp) name)
  /\ load_from fs_proj
       (final (register_times 3 "/proj/run_app.py" fs_proj proc_tmp))
       "backend" "main" "main"
     = entry_point "/proj/run_app.py" fs_proj proc_tmp.
Proof.
  apply (registration_not_idempotent fs_proj proc_tmp "/proj/run_app.py" 3).
  lia.
Defined.

(** C10: the registration is a prepend and nothing else.  The search path
    grows by one entry, every entry that was at an index [i] is at [i + 1]
    afterwards, and every entry occurs as often as before (the root once
    more), so none is lost, replaced or moved past another; the working
    directory is as before, and the step performs the one insertion and
    returns. *)
Theorem registration_is_pure_prepend
    (fs : filesystem) (p : process) (file : string) :
  length (sys_path (registered file fs p)) = S (length (sys_path p))
  /\ (forall i,
        nth_error (sys_path (registered file fs p)) (S i)
        = nth_error (sys_path p) i)
  /\ (forall entry,
        count_occ string_dec (sys_path (registered file fs p)) entry
        = (if string_dec (root_entry file) entry then 1 else 0)
          + count_occ string_dec (sys_path p) entry)
  /\ tl (sys_path (registered file fs p)) = sys_path p
  /\ cwd (registered file fs p) = cwd p
  /\ res (register_root file fs p) = Ok tt
  /\ trace (register_root file fs p) = [EvInsert 0 (root_entry file)].
Proof.
  rewrite registered_eq. cbn [sys_path cwd].
  split; [reflexivity|]. split; [reflexivity|]. split.
  - intros entry. cbn [count_occ].
    destruct (string_dec (root_entry file) entry); reflexivity.
  - repeat split.
Qed.


(** * Further properties of the launcher *)

(** X1: the string that the launcher registers is the project root and
    nothing else: parsed again as a path it is the parent of the launcher's
    path, printing that path gives the same string, and the string is never
    empty (the empty entry would stand for the working directory). *)
Theorem registered_root_parses_back (file : string) :
  PurePath.parse (root_entry file) = PurePath.parent (PurePath.parse file)
  /\ PurePath.to_str (PurePath.parse (root_entry file)) = root_entry file
  /\ root_entry file <> EmptyString.
Proof.
  pose proof (PurePathFacts.parent_wf _ (PurePathFacts.parse_wf file)) as Hwf.
  unfold root_entry.
  rewrite (PurePathRoundTrip.parse_to_str _ Hwf).
  repeat split. now apply PurePathRoundTrip.to_str_not_empty.
Qed.

(** X2: a launcher path without any name (only a root, dots or nothing) is
    its own parent: the root registered is ["."], ["/"] or ["//"], and it
    denotes the very place the path names. *)
Theorem nameless_path_is_its_own_root (wd file : string) :
  ~ names_a_file file ->
  (root_entry file = "." \/ root_entry file = "/" \/ root_entry file = "//")
  /\ entry_directory wd (root_entry file) = launcher_location wd file.
Proof.
  unfold names_a_file. intros Hnone.
  assert (Ht : PurePath.tail (PurePath.parse file) = [])
    by (destruct (PurePath.tail (PurePath.parse file));
        [reflexivity | exfalso; apply Hnone; discriminate]).
  assert (Hp : PurePath.parent (PurePath.parse file) = PurePath.parse file)
    by (unfold PurePath.parent; now rewrite Ht).
  split.
  - unfold root_entry. rewrite Hp. unfold PurePath.to_str. rewrite Ht.
    destruct (PurePath.wf_root _ (PurePathFacts.parse_wf file))
      as [-> | [-> | ->]]; auto.
  - rewrite root_entry_denotes, Hp.
    unfold launcher_location, entry_directory. reflexivity.
Qed.

Lemma nameless_path_is_its_own_root_witness :
  (root_entry "/" = "." \/ root_entry "/" = "/" \/ root_entry "/" = "//")
  /\ entry_directory "/tmp" (root_entry "/") = launcher_location "/tmp" "/".
Proof.
  apply (nameless_path_is_its_own_root "/tmp" "/").
  unfold names_a_file. simpl. intros H. now apply H.
Defined.

(** X3: the registration changes nothing for a name under which the
    root's directory holds nothing at all (no module file, no package, no
    directory): what wins on the search path, the namespace portions on it
    and every import from that name are as before the registration. *)
Theorem registration_keeps_other_resolutions
    (fs : filesystem) (p : process) (file name : string) :
  fs (entry_directory (cwd p) (root_entry file)) name = None ->
  path_find fs (registered file fs p) name = path_find fs p name
  /\ namespace_portions fs (registered file fs p) name
     = namespace_portions fs p name
  /\ (forall sub attr,
        load_from fs (registered file fs p) name sub attr
        = load_from fs p name sub attr).
Proof.
  intros Hnone.
  destruct (candidates_skip_root fs file name p Hnone) as [Hfirst Hdirs].
  split; [exact Hfirst|]. split; [exact Hdirs|].
  intros sub attr. unfold load_from, load. now rewrite Hfirst, Hdirs.
Qed.

Lemma registration_keeps_other_resolutions_witness :
  path_find fs_installed (registered "/proj/run_app.py" fs_installed proc_tmp)
            "backend"
  = path_find fs_installed proc_tmp "backend"
  /\ namespace_portions fs_installed
       (registered "/proj/run_app.py" fs_installed proc_tmp) "backend"
     = namespace_portions fs_installed proc_tmp "backend"
  /\ (forall sub attr,
        load_from fs_installed
          (registered "/proj/run_app.py" fs_installed proc_tmp)
          "backend" sub attr
        = load_from fs_installed proc_tmp "backend" sub attr).
Proof.
  apply (registration_keeps_other_resolutions fs_installed proc_tmp
           "/proj/run_app.py" "backend").
  reflexivity.
Defined.

(** X4: when nothing at all is named [backend] in the root's directory nor
    in the directory of any entry of the inherited search path (no module
    file, no package, no directory), a top-level run ends with
    [ModuleNotFoundError] for [backend]; [main] is not called, and the
    entry registered stays on the search path. *)
Theorem missing_backend_raises_module_not_found
    (fs : filesystem) (p : process) (file : string) :
  fs (entry_directory (cwd p) (root_entry file)) "backend" = None ->
  path_find fs p "backend" = None ->
  namespace_portions fs p "backend" = [] ->
  res (run_app file "__main__" fs p) = Raise (ModuleNotFoundError "backend")
  /\ calls (run_app file "__main__" fs p) = 0
  /\ sys_path (final (run_app file "__main__" fs p))
     = root_entry file :: sys_path p.
Proof.
  intros Hroot Hfind Hdirs.
  destruct (candidates_skip_root fs file "backend" p Hroot) as [Hfirst Hns].
  assert (He : entry_point file fs p = Raise (ModuleNotFoundError "backend")).
  { unfold entry_point, load_from, load. rewrite Hfirst, Hns.
    unfold path_find in Hfind. unfold namespace_portions in Hdirs.
    now rewrite Hfind, Hdirs. }
  rewrite run_app_run, He. cbn zeta. rewrite registered_eq. repeat split.
Qed.

Lemma missing_backend_raises_module_not_found_witness :
  res (run_app "/proj/run_app.py" "__main__" fs_bare proc_tmp)
  = Raise (ModuleNotFoundError "backend")
  /\ calls (run_app "/proj/run_app.py" "__main__" fs_bare proc_tmp) = 0
  /\ sys_path (final (run_app "/proj/run_app.py" "__main__" fs_bare proc_tmp))
     = root_entry "/proj/run_app.py" :: sys_path proc_tmp.
Proof.
  apply (missing_backend_raises_module_not_found fs_bare proc_tmp
           "/proj/run_app.py"); reflexivity.
Defined.



(** X6: with [sys] and [Path] bound, an exception that ends a run of the
    launcher's file comes from one of three statements.  It is the
    [NameError] of line 9 when [__file__] is not defined, raised before
    anything is registered or imported; or it is the exception that the
    import of line 13 raised; or, in a top-level run, the one that the
    call of [main] raised. *)
Theorem exception_comes_from_name_import_or_call
    (fs : filesystem) (p : process) (file : option string) (name : string)
    (e : exn) :
  res (run_file file name fs p) = Raise e ->
  (file = None
   /\ e = NameError "__file__"
   /\ trace (run_file file name fs p) = []
   /\ final (run_file file name fs p) = p)
  \/ (exists path,
        file = Some path
        /\ (res (import_from "backend" "main" "main" fs (registered path fs p))
            = Raise e
            \/ (exists main,
                  res (import_from "backend" "main" "main" fs
                         (registered path fs p))
                  = Ok main
                  /\ name = "__main__"
                  /\ res (call "main" main fs (registered path fs p))
                     = Raise e))).
Proof.
  destruct file as [path|]; cbn [run_file res trace final].
  - intros Hres. right. exists path. split; [reflexivity|].
    rewrite run_app_res in Hres.
    destruct (res (import_from "backend" "main" "main" fs
                     (registered path fs p))) as [main|e'];
      [|injection Hres as ->; now left].
    destruct (String.eqb name "__main__") eqn:Hname; [|discriminate].
    right. exists main. apply String.eqb_eq in Hname. auto.
  - intros Hres. injection Hres as <-. left. repeat split.
Qed.

Lemma exception_comes_from_name_import_or_call_witness :
  (@None string = None
   /\ NameError "__file__" = NameError "__file__"
   /\ trace (run_file None "__main__" fs_proj proc_tmp) = []
   /\ final (run_file None "__main__" fs_proj proc_tmp) = proc_tmp)
  \/ (exists path,
        None = Some path
        /\ (res (import_from "backend" "main" "main" fs_proj
                   (registered path fs_proj proc_tmp))
            = Raise (NameError "__file__")
            \/ (exists main,
                  res (import_from "backend" "main" "main" fs_proj
                         (registered path fs_proj proc_tmp))
                  = Ok main
                  /\ "__main__" = "__main__"
                  /\ res (call "main" main fs_proj
                            (registered path fs_proj proc_tmp))
                     = Raise (NameError "__file__")))).
Proof.
  apply (exception_comes_from_name_import_or_call fs_proj proc_tmp None
           "__main__" (NameError "__file__")).
  reflexivity.
Defined.

(** X7: loaded as a library, the launcher ends as its import ends: it
    returns when the import yields a value, whatever that value is (a
    [main] that would raise, or one that cannot be called), and it raises
    what the import raises. *)
Theorem library_outcome_is_import_outcome
    (fs : filesystem) (p : process) (file name : string) :
  name <> "__main__" ->
  res (run_app file name fs p)
  = match res (import_from "backend" "main" "main" fs (registered file fs p)) with
    | Ok _ => Ok tt
    | Raise e => Raise e
    end.
Proof.
  intros Hname. apply String.eqb_neq in Hname.
  rewrite run_app_res, Hname. reflexivity.
Qed.

Lemma library_outcome_is_import_outcome_witness :
  res (run_app "/proj/run_app.py" "run_app" fs_failing proc_tmp)
  = match res (import_from "backend" "main" "main" fs_failing
                 (registered "/proj/run_app.py" fs_failing proc_tmp)) with
    | Ok _ => Ok tt
    | Raise e => Raise e
    end.
Proof.
  apply (library_outcome_is_import_outcome fs_failing proc_tmp
           "/proj/run_app.py" "run_app").
  discriminate.
Defined.

(** X8: the directory that the registered root denotes depends on the
    working directory exactly when the launcher's path is relative.  For an
    absolute launcher path it is the same directory from every working
    directory; for a relative one it is the working directory followed by
    the names of the path's parent. *)
Theorem registered_root_follows_cwd_only_if_relative
    (wd1 wd2 file : string) :
  (PyStr.isabs file = true ->
   entry_directory wd1 (root_entry file) = entry_directory wd2 (root_entry file))
  /\ (PyStr.isabs file = false ->
      entry_directory wd1 (root_entry file)
      = (PurePath.tail (PurePath.parse wd1)
         ++ PurePath.tail (PurePath.parent (PurePath.parse file)))%list).
Proof.
  rewrite !root_entry_denotes. split; intros ->; reflexivity.
Qed.

Lemma registered_root_follows_cwd_only_if_relative_witness :
  entry_directory "/tmp" (root_entry "/proj/run_app.py")
  = entry_directory "/home/user" (root_entry "/proj/run_app.py")
  /\ entry_directory "/tmp" (root_entry "tools/run_app.py") = ["tmp"; "tools"].
Proof.
  split.
  - apply (proj1 (registered_root_follows_cwd_only_if_relative
                    "/tmp" "/home/user" "/proj/run_app.py")).
    reflexivity.
  - apply (proj2 (registered_root_follows_cwd_only_if_relative
                    "/tmp" "/home/user" "tools/run_app.py")).
    reflexivity.
Defined.



(** X10: when the import binds [main] to a value that cannot be called, a
    top-level run ends with a [TypeError] and without a call of any entry
    point. *)
Theorem non_callable_main_raises_type_error
    (fs : filesystem) (p : process) (file : string) :
  res (import_from "backend" "main" "main" fs (registered file fs p))
  = Ok NotCallable ->
  (exists message,
      res (run_app file "__main__" fs p) = Raise (TypeError message))
  /\ calls (run_app file "__main__" fs p) = 0.
Proof.
  rewrite import_from_run, run_app_run. cbn [res]. intros ->. cbn zeta.
  rewrite String.eqb_refl. split; [eexists|]; reflexivity.
Qed.

Lemma non_callable_main_raises_type_error_witness :
  (exists message,
      res (run_app "/opt/app/run_app.py" "__main__" fs_shadowed proc_tmp)
      = Raise (TypeError message))
  /\ calls (run_app "/opt/app/run_app.py" "__main__" fs_shadowed proc_tmp) = 0.
Proof.
  apply (non_callable_main_raises_type_error fs_shadowed proc_tmp
           "/opt/app/run_app.py").
  reflexivity.
Defined.
